(** * taskmanager: the two credential scripts

    A shallow embedding of [add_youtube_credentials.py] (the Credential
    Writer) and [extract_credentials.py] (the Credential Extractor), and the
    properties of their observable behaviour: the content of [api_keys.txt],
    what is printed on standard output, and the exit status.

    A Python [str] is modelled by the bytes of its UTF-8 encoding, held in
    a [string]: an ASCII character is one [ascii], any other character is a
    leading byte followed by its continuation bytes.  Files are opened in text mode on a POSIX system:
    reading applies universal-newline translation, writing leaves a line
    feed as it is.  Failures of the operating system while the store is read
    or written are outside the model. *)

From Stdlib Require Import String Ascii List Bool Arith ZArith Lia.
From Stdlib Require Floats.PrimFloat.
Import ListNotations.

Local Open Scope list_scope.
Local Open Scope string_scope.

(** ** Python strings and text files *)

Module Py.

(** The line feed and carriage return characters, and the double quote. *)
Definition LF : ascii := ascii_of_nat 10.
Definition CR : ascii := ascii_of_nat 13.
Definition DQUOTE : ascii := ascii_of_nat 34.

Definition nl : string := String LF EmptyString.

(** [s.startswith(pre)] *)
Fixpoint startswith (s pre : string) : bool :=
  match pre with
  | EmptyString => true
  | String c pre' =>
      match s with
      | EmptyString => false
      | String d s' => Ascii.eqb c d && startswith s' pre'
      end
  end.

(** A byte that continues a character: [10xxxxxx]. *)
Definition is_continuation (c : ascii) : bool :=
  (128 <=? nat_of_ascii c)%nat && (nat_of_ascii c <? 192)%nat.

(** [len(s)]: every byte that is not a continuation byte starts a
    character. *)
Fixpoint characters (s : string) : nat :=
  match s with
  | EmptyString => 0
  | String c rest =>
      (if is_continuation c then 0 else 1) + characters rest
  end.

(** The text does not begin in the middle of a character. *)
Definition whole (s : string) : bool :=
  match s with
  | EmptyString => true
  | String c _ => negb (is_continuation c)
  end.

(** [s[:n]] for a non-negative [n]: the first [n] characters, each with all
    its bytes. *)
Fixpoint slice_to (n : nat) (s : string) : string :=
  match s with
  | EmptyString => EmptyString
  | String c rest =>
      if is_continuation c then String c (slice_to n rest)
      else
        match n with
        | 0 => EmptyString
        | S n' => String c (slice_to n' rest)
        end
  end.

(** [print(s)]: the text and a line feed are appended to standard output. *)
Definition print (out s : string) : string := out ++ s ++ nl.

(** Universal newlines, as a text-mode read applies them: ["\r\n"] and a
    lone ["\r"] are both delivered as ["\n"]. *)
Fixpoint universal_newlines (s : string) : string :=
  match s with
  | EmptyString => EmptyString
  | String c rest =>
      if Ascii.eqb c CR then
        String LF
          match rest with
          | EmptyString => EmptyString
          | String c' rest' =>
              if Ascii.eqb c' LF then universal_newlines rest'
              else universal_newlines rest
          end
      else String c (universal_newlines rest)
  end.

(** Cutting a text after every line feed; the line feed stays with its line
    and only the last line can lack one. *)
Fixpoint split_keepends (s : string) : list string :=
  match s with
  | EmptyString => []
  | String c rest =>
      if Ascii.eqb c LF then String c EmptyString :: split_keepends rest
      else
        match split_keepends rest with
        | [] => [String c EmptyString]
        | l :: ls => String c l :: ls
        end
  end.

(** [f.readlines()] on a file opened with [open(path, 'r')] *)
Definition readlines (content : string) : list string :=
  split_keepends (universal_newlines content).

(** [f.writelines(lines)] on a file opened with [open(path, 'w')]: the
    strings are written one after the other, nothing is added. *)
Definition writelines (lines : list string) : string :=
  fold_right String.append EmptyString lines.

(** A character that breaks a line when the file is read back. *)
Definition is_break (c : ascii) : bool := Ascii.eqb c LF || Ascii.eqb c CR.

(** No line break anywhere in [s]. *)
Fixpoint no_break (s : string) : bool :=
  match s with
  | EmptyString => true
  | String c rest => negb (is_break c) && no_break rest
  end.

(** The text is empty or its last character ends a line. *)
Fixpoint terminated (s : string) : bool :=
  match s with
  | EmptyString => true
  | String c rest =>
      match rest with
      | EmptyString => is_break c
      | String _ _ => terminated rest
      end
  end.

(** One complete line: no break inside, a line feed at the end. *)
Fixpoint complete_line (s : string) : bool :=
  match s with
  | EmptyString => false
  | String c rest =>
      match rest with
      | EmptyString => Ascii.eqb c LF
      | String _ _ => negb (is_break c) && complete_line rest
      end
  end.

(** The equals sign that separates a key from its value. *)
Definition EQ : ascii := "="%char.

(** The part of [s] before the first [c]. *)
Fixpoint before (c : ascii) (s : string) : string :=
  match s with
  | EmptyString => EmptyString
  | String d rest =>
      if Ascii.eqb c d then EmptyString else String d (before c rest)
  end.

(** [c] does not occur in [s]. *)
Fixpoint lacks (c : ascii) (s : string) : bool :=
  match s with
  | EmptyString => true
  | String d rest => negb (Ascii.eqb c d) && lacks c rest
  end.

End Py.

(** ** add_youtube_credentials.py *)

Module AddYoutubeCredentials.
Import Py.

(** The store: [None] when [api_keys.txt] does not exist, otherwise its
    text. *)
Definition store := option string.

(** What a run of the script leaves behind. *)
Record outcome := mkOutcome {
  stdout : string;
  exit_status : nat;
  api_keys : store
}.

Definition client_id_key (project_name : string) : string :=
  project_name ++ "_YouTube_Client_ID".

Definition client_secret_key (project_name : string) : string :=
  project_name ++ "_YouTube_Client_Secret".

(** Lines 26 to 29: the lines read from the store, none when it is absent. *)
Definition read_store (fs : store) : list string :=
  match fs with
  | None => []
  | Some content => readlines content
  end.

(** The test of the list comprehension of lines 32 to 35. *)
Definition is_stale (project_name line : string) : bool :=
  startswith line (client_id_key project_name ++ "=")
  || startswith line (client_secret_key project_name ++ "=").

(** The two lines appended at lines 38 and 39. *)
Definition id_line (project_name client_id : string) : string :=
  client_id_key project_name ++ "=" ++ client_id ++ nl.

Definition secret_line (project_name client_secret : string) : string :=
  client_secret_key project_name ++ "=" ++ client_secret ++ nl.

(** The list held by [lines] when it is written back. *)
Definition new_lines (fs : store) (project_name client_id client_secret : string)
  : list string :=
  (filter (fun line => negb (is_stale project_name line)) (read_store fs)
     ++ [id_line project_name client_id])
    ++ [secret_line project_name client_secret].

(** The four [print] calls of lines 45 to 48. *)
Definition confirmation (project_name client_id client_secret : string)
  : string :=
  let out := EmptyString in
  let out := print out ("✅ YouTube credentials added for project: " ++ project_name) in
  let out := print out ("   Client ID: " ++ client_id) in
  let out := print out ("   Client Secret: " ++ slice_to 10 client_secret ++ "...") in
  print out ("   Keys added to api_keys.txt: " ++ client_id_key project_name
               ++ ", " ++ client_secret_key project_name).

(** [add_youtube_credentials]: the store after the call and what it
    printed. *)
Definition add_youtube_credentials
    (fs : store) (project_name client_id client_secret : string)
  : store * string :=
  (Some (writelines (new_lines fs project_name client_id client_secret)),
   confirmation project_name client_id client_secret).

(** The module docstring printed as usage text. *)
Definition __doc__ : string :=
  let q := String DQUOTE EmptyString in
  "
YouTube Credentials Helper Script

This script helps you add YouTube OAuth credentials to your api_keys.txt file
for specific projects in your Task Manager app.

Usage:
    python add_youtube_credentials.py <project_name> <client_id> <client_secret>

Example:
    python add_youtube_credentials.py " ++ q ++ "My Gaming Channel" ++ q ++ " "
    ++ q ++ "123456789-abc123.apps.googleusercontent.com" ++ q ++ " "
    ++ q ++ "GOCSPX-secret123" ++ q ++ nl.

(** [main], with [sys.argv] and the store as inputs.  Nothing in
    [add_youtube_credentials] raises on this model of the store, so the
    [except] clause of lines 61 to 63 is never entered. *)
Definition main (argv : list string) (fs : store) : outcome :=
  if negb (length argv =? 4)%nat then
    mkOutcome (print EmptyString __doc__) 1 fs
  else
    let project_name := nth 1 argv EmptyString in
    let client_id := nth 2 argv EmptyString in
    let client_secret := nth 3 argv EmptyString in
    let '(fs', out) :=
      add_youtube_credentials fs project_name client_id client_secret in
    mkOutcome out 0 fs'.

(** The store after [add_youtube_credentials]. *)
Definition store_after (fs : store) (p i s : string) : store :=
  fst (add_youtube_credentials fs p i s).

(** *** The properties asked of the store *)

(** The store is absent, empty, or ends with a line terminator. *)
Definition store_terminated (fs : store) : bool :=
  match fs with
  | None => true
  | Some content => terminated content
  end.

(** The lines of the store that begin with [key] followed by ['=']. *)
Definition lines_for (key : string) (fs : store) : list string :=
  filter (fun line => startswith line (key ++ "=")) (read_store fs).

(** The lines of the store that belong to the project: those that begin
    with one of its two derived keys followed by ['=']. *)
Definition lines_of (project_name : string) (fs : store) : list string :=
  filter (is_stale project_name) (read_store fs).

(** All the other lines. *)
Definition other_lines (project_name : string) (fs : store) : list string :=
  filter (fun line => negb (is_stale project_name line)) (read_store fs).

(** The invariant after a write: one line per derived key, with the values
    just supplied, and the other lines as they were. *)
Definition upserted (fs : store) (p i s : string) : Prop :=
  let fs' := store_after fs p i s in
  lines_for (client_id_key p) fs' = [id_line p i]
  /\ lines_for (client_secret_key p) fs' = [secret_line p s]
  /\ other_lines p fs' = other_lines p fs.

(** The store holds exactly the two lines of [(p, i, s)], id first. *)
Definition holds_only (fs : store) (p i s : string) : Prop :=
  read_store fs = [id_line p i; secret_line p s].

(** After two writes for the same project, one pair of lines is left and it
    holds the second values. *)
Definition second_write_wins (fs : store) (p i1 s1 i2 s2 : string) : Prop :=
  let fs2 := store_after (store_after fs p i1 s1) p i2 s2 in
  lines_for (client_id_key p) fs2 = [id_line p i2]
  /\ lines_for (client_secret_key p) fs2 = [secret_line p s2].

(** A write for project [b] keeps the stored lines of project [a], and
    removes nothing but lines that begin with one of the derived keys of
    [b] followed by ['=']: what was stored is still there, in order, before
    whatever the write added. *)
Definition isolated (fs : store) (a b i s : string) : Prop :=
  let fs' := store_after fs b i s in
  (exists added, lines_of a fs' = (lines_of a fs ++ added)%list)
  /\ (exists added, read_store fs' = (other_lines b fs ++ added)%list).

(** The text [secret] stands somewhere in the output [out], whole. *)
Definition printed_in_full (secret out : string) : Prop :=
  exists before after, out = before ++ secret ++ after.

(** The run prints its confirmation without the whole secret in it. *)
Definition secret_withheld (argv0 p i s : string) (fs : store) : Prop :=
  ~ printed_in_full s (stdout (main [argv0; p; i; s] fs)).

(** *** Runs of the script one after the other *)

(** The arguments of one run: project name, client id, client secret. *)
Definition arguments : Type := string * string * string.

(** The store after the runs of [runs], the first of the list first. *)
Definition run_all (fs : store) (runs : list arguments) : store :=
  fold_left (fun fs r => let '(p, i, s) := r in store_after fs p i s) runs fs.

(** The values given by the latest run for [project_name], if any. *)
Definition latest (project_name : string) (runs : list arguments)
  : option (string * string) :=
  fold_left
    (fun found r =>
       let '(p, i, s) := r in
       if String.eqb p project_name then Some (i, s) else found)
    runs None.

(** Arguments without line breaks, and a project name without ['=']. *)
Definition plain (r : arguments) : bool :=
  let '(p, i, s) := r in
  no_break p && lacks EQ p && no_break i && no_break s.

(** *** When the file system refuses *)

(** The store together with the ways the two [open] calls can fail:
    [read_error] is the text of the exception raised when the existing file
    is opened or read at lines 28 and 29, [write_error] the text of the one
    raised by [open('api_keys.txt', 'w')] at line 42, before the file is
    touched.  A failure in the middle of [writelines] is not modelled. *)
Record file_system := mkFileSystem {
  content : store;
  read_error : option string;
  write_error : option string
}.

(** [add_youtube_credentials] on such a file system: the text of the
    exception that escapes, or the new store and what was printed. *)
Definition add_youtube_credentials_io
    (env : file_system) (project_name client_id client_secret : string)
  : string + store * string :=
  match content env, read_error env with
  | Some _, Some e => inl e
  | _, _ =>
      match write_error env with
      | Some e => inl e
      | None =>
          inr (add_youtube_credentials (content env)
                 project_name client_id client_secret)
      end
  end.

(** [main] with its [try] and [except], lines 50 to 63. *)
Definition main_io (argv : list string) (env : file_system) : outcome :=
  if negb (length argv =? 4)%nat then
    mkOutcome (print EmptyString __doc__) 1 (content env)
  else
    let project_name := nth 1 argv EmptyString in
    let client_id := nth 2 argv EmptyString in
    let client_secret := nth 3 argv EmptyString in
    match
      add_youtube_credentials_io env project_name client_id client_secret
    with
    | inr (fs', out) => mkOutcome out 0 fs'
    | inl e => mkOutcome (print EmptyString ("❌ Error: " ++ e)) 1 (content env)
    end.

End AddYoutubeCredentials.

(** ** extract_credentials.py *)

Module ExtractCredentials.
Import Py.

(** What [json.load] returns. *)
#[local] Set Warnings "-register-all".
Inductive value : Type :=
| VNone
| VBool (b : bool)
| VInt (z : Z)
| VFloat (f : PrimFloat.float)
| VStr (s : string)
| VList (elems : list value)
| VDict (items : list (string * value)).

(** The exceptions the [except] clauses of lines 36 to 44 tell apart; the
    last one carries [str(e)]. *)
Inductive exn : Type :=
| FileNotFoundError
| JSONDecodeError
| Exception (msg : string).

Inductive result (A : Type) : Type :=
| Ok (a : A)
| Raise (e : exn).
Arguments Ok {A} a.
Arguments Raise {A} e.

Definition bind {A B : Type} (r : result A) (k : A -> result B) : result B :=
  match r with
  | Ok a => k a
  | Raise e => Raise e
  end.

Notation "x <- r ;; k" := (bind r (fun x => k))
  (at level 61, r at next level, right associativity).

(** The name of the type of a value, as it shows in the messages of
    [TypeError] and [AttributeError] (the wording is that of CPython 3.12). *)
Definition type_name (v : value) : string :=
  match v with
  | VNone => "NoneType"
  | VBool _ => "bool"
  | VInt _ => "int"
  | VFloat _ => "float"
  | VStr _ => "str"
  | VList _ => "list"
  | VDict _ => "dict"
  end.

(** The items of a dict are kept in document order; as in [json.load], the
    last pair with a given key is the one that counts. *)
Fixpoint dict_get (key : string) (items : list (string * value))
  : option value :=
  match items with
  | [] => None
  | (k, v) :: rest =>
      match dict_get key rest with
      | Some v' => Some v'
      | None => if String.eqb k key then Some v else None
      end
  end.

(** [sub in s] on two strings *)
Fixpoint contains (s sub : string) : bool :=
  startswith s sub
  || match s with
     | EmptyString => false
     | String _ rest => contains rest sub
     end.

Definition is_str (key : string) (v : value) : bool :=
  match v with
  | VStr s => String.eqb s key
  | _ => false
  end.

(** [key in data], for a string [key] *)
Definition py_in (key : string) (data : value) : result bool :=
  match data with
  | VDict items =>
      Ok (match dict_get key items with Some _ => true | None => false end)
  | VList elems => Ok (existsb (is_str key) elems)
  | VStr s => Ok (contains s key)
  | _ =>
      Raise (Exception
               ("argument of type '" ++ type_name data ++ "' is not iterable"))
  end.

(** [data[key]], for a string [key] *)
Definition py_getitem (data : value) (key : string) : result value :=
  match data with
  | VDict items =>
      match dict_get key items with
      | Some v => Ok v
      | None => Raise (Exception ("'" ++ key ++ "'"))
      end
  | VList _ =>
      Raise (Exception "list indices must be integers or slices, not str")
  | VStr _ => Raise (Exception "string indices must be integers, not 'str'")
  | _ =>
      Raise (Exception
               ("'" ++ type_name data ++ "' object is not subscriptable"))
  end.

(** [credentials.get(key)] *)
Definition py_get (credentials : value) (key : string) : result value :=
  match credentials with
  | VDict items =>
      Ok (match dict_get key items with Some v => v | None => VNone end)
  | _ =>
      Raise (Exception
               ("'" ++ type_name credentials
                    ++ "' object has no attribute 'get'"))
  end.

(** Truth value of an object. *)
Definition truthy (v : value) : bool :=
  match v with
  | VNone => false
  | VBool b => b
  | VInt z => negb (Z.eqb z 0)
  | VFloat f => negb (PrimFloat.eqb f PrimFloat.zero)
  | VStr s => negb (String.eqb s EmptyString)
  | VList elems => match elems with [] => false | _ :: _ => true end
  | VDict items => match items with [] => false | _ :: _ => true end
  end.

(** The dict returned at lines 31 to 34. *)
Record credentials := mkCredentials {
  client_id : value;
  client_secret : value
}.

Record outcome := mkOutcome {
  stdout : string;
  exit_status : nat
}.

Definition no_section_msg : string :=
  "❌ Error: Could not find 'installed' or 'web' section in JSON file".
Definition missing_field_msg : string :=
  "❌ Error: Missing client_id or client_secret in JSON file".
Definition invalid_json_msg : string := "❌ Error: Invalid JSON file".
Definition not_found_msg (json_file_path : string) : string :=
  "❌ Error: File '" ++ json_file_path ++ "' not found".
Definition generic_msg (e : string) : string := "❌ Error: " ++ e.

(** Lines 24 to 34, once the section is chosen: what was printed and what is
    returned. *)
Definition read_fields (section : value)
  : result (string * option credentials) :=
  cid <- py_get section "client_id" ;;
  csecret <- py_get section "client_secret" ;;
  if negb (truthy cid) || negb (truthy csecret) then
    Ok (print EmptyString missing_field_msg, None)
  else Ok (EmptyString, Some (mkCredentials cid csecret)).

(** The body of the [try], lines 12 to 34.  [loaded] is what lines 12 and
    13 give: the parsed document or the exception raised by [open] or
    [json.load]. *)
Definition try_body (loaded : result value)
  : result (string * option credentials) :=
  data <- loaded ;;
  has_installed <- py_in "installed" data ;;
  if has_installed then
    section <- py_getitem data "installed" ;;
    read_fields section
  else
    has_web <- py_in "web" data ;;
    if has_web then
      section <- py_getitem data "web" ;;
      read_fields section
    else Ok (print EmptyString no_section_msg, None).

(** [extract_credentials]: what it printed and what it returned. *)
Definition extract_credentials (json_file_path : string)
    (loaded : result value) : string * option credentials :=
  match try_body loaded with
  | Ok r => r
  | Raise FileNotFoundError =>
      (print EmptyString (not_found_msg json_file_path), None)
  | Raise JSONDecodeError => (print EmptyString invalid_json_msg, None)
  | Raise (Exception e) => (print EmptyString (generic_msg e), None)
  end.

Section Main.

(** How an f-string renders a value that is not a [str]. *)
Variable render : value -> string.

Definition format (v : value) : string :=
  match v with
  | VStr s => s
  | _ => render v
  end.

(** The file system as the script sees it: what opening and parsing the
    file at a path gives. *)
Variable load : string -> result value.

Definition main (argv : list string) : outcome :=
  if negb (length argv =? 2)%nat then
    let out := print EmptyString
                 "Usage: python extract_credentials.py <path_to_json_file>" in
    let out := print out
                 "Example: python extract_credentials.py ~/Downloads/client_secret_123456.json" in
    mkOutcome out 1
  else
    let json_file := nth 1 argv EmptyString in
    let '(out, returned) := extract_credentials json_file (load json_file) in
    match returned with
    | Some c =>
        let out := print out ("clientId=" ++ format (client_id c)) in
        let out := print out ("clientSecret=" ++ format (client_secret c)) in
        mkOutcome out 0
    | None => mkOutcome out 1
    end.

End Main.

(** *** The properties asked of a run *)

(** The two documents of the round-trip property. *)
Definition installed_doc (X Y : string) : value :=
  VDict [("installed",
          VDict [("client_id", VStr X); ("client_secret", VStr Y)])].

Definition web_doc (X Y : string) : value :=
  VDict [("web", VDict [("client_id", VStr X); ("client_secret", VStr Y)])].

(** The successful run that prints the pair [(X, Y)]. *)
Definition printed_pair (X Y : string) : outcome :=
  mkOutcome ("clientId=" ++ X ++ nl ++ "clientSecret=" ++ Y ++ nl) 0.

(** The section the script reads its fields from: [installed] when the
    document has it, otherwise [web]. *)
Definition probed_section (items : list (string * value)) : option value :=
  match dict_get "installed" items with
  | Some section => Some section
  | None => dict_get "web" items
  end.

(** The value of a field as [dict.get] gives it. *)
Definition field (fields : list (string * value)) (key : string) : value :=
  match dict_get key fields with
  | Some v => v
  | None => VNone
  end.

(** The four failures the specification lists, each with the message the
    script has for it. *)
Inductive failure (json_file_path : string) : result value -> string -> Prop :=
| failure_not_found :
    failure json_file_path (Raise FileNotFoundError)
      (not_found_msg json_file_path)
| failure_invalid_json :
    failure json_file_path (Raise JSONDecodeError) invalid_json_msg
| failure_no_section items :
    dict_get "installed" items = None ->
    dict_get "web" items = None ->
    failure json_file_path (Ok (VDict items)) no_section_msg
| failure_field items fields :
    probed_section items = Some (VDict fields) ->
    truthy (field fields "client_id") = false
    \/ truthy (field fields "client_secret") = false ->
    failure json_file_path (Ok (VDict items)) missing_field_msg.

(** A run that fails without a word on standard output. *)
Definition silent_failure (o : outcome) : Prop :=
  exit_status o <> 0 /\ stdout o = EmptyString.

Definition is_dict (v : value) : bool :=
  match v with
  | VDict _ => true
  | _ => false
  end.

(** The document has an entry [key] and it is not an object. *)
Definition entry_not_object (key : string) (data : value) : bool :=
  match data with
  | VDict items =>
      match dict_get key items with
      | Some v => negb (is_dict v)
      | None => false
      end
  | _ => false
  end.

(** The top level is not an object, or the [installed] or the [web] entry
    is not an object. *)
Definition misshapen (data : value) : bool :=
  negb (is_dict data)
  || entry_not_object "installed" data
  || entry_not_object "web" data.

(** The top level is not an object, or the section the script reads is not
    an object. *)
Definition probed_misshapen (data : value) : bool :=
  match data with
  | VDict items =>
      match probed_section items with
      | Some v => negb (is_dict v)
      | None => false
      end
  | _ => true
  end.

(** No line of the output begins with [clientId=] or [clientSecret=]. *)
Definition no_credential_line (out : string) : bool :=
  forallb
    (fun line =>
       negb (startswith line "clientId=" || startswith line "clientSecret="))
    (split_keepends out).

(** The run ends with status 1 and prints no credential line. *)
Definition rejected (o : outcome) : Prop :=
  exit_status o = 1 /\ no_credential_line (stdout o) = true.

End ExtractCredentials.

(** ** Facts about strings, lines and text files *)

Module PyFacts.
Import Py.

Lemma append_assoc (a b c : string) : (a ++ b) ++ c = a ++ (b ++ c).
Proof.
  induction a as [|x a IH]; simpl; [reflexivity | now rewrite IH].
Qed.

Lemma append_nil_r (a : string) : a ++ EmptyString = a.
Proof.
  induction a as [|x a IH]; simpl; [reflexivity | now rewrite IH].
Qed.

Lemma append_inv_head (p a b : string) : p ++ a = p ++ b -> a = b.
Proof.
  induction p as [|x p IH]; simpl; intros H; [exact H|].
  injection H as H. now apply IH.
Qed.

(** An induction that peels characters off two at a time, as
    [universal_newlines] does after a carriage return. *)
Lemma string_pair_ind (P : string -> Prop) :
  P EmptyString ->
  (forall c, P (String c EmptyString)) ->
  (forall c c' s, P s -> P (String c' s) -> P (String c (String c' s))) ->
  forall s, P s.
Proof.
  intros H0 H1 H2 s.
  enough (P s /\ forall c, P (String c s)) as [H _] by exact H.
  induction s as [|c' s [IHa IHb]]; split; auto.
Qed.

Lemma startswith_append (s r : string) : startswith (s ++ r) s = true.
Proof.
  induction s as [|c s IH]; simpl; [now destruct r|].
  now rewrite Ascii.eqb_refl.
Qed.

Lemma startswith_common (p a b : string) :
  startswith (p ++ a) (p ++ b) = startswith a b.
Proof.
  induction p as [|c p IH]; simpl; [reflexivity|].
  now rewrite Ascii.eqb_refl.
Qed.

Lemma startswith_split (pre s : string) :
  startswith s pre = true -> exists r, s = pre ++ r.
Proof.
  revert s; induction pre as [|c pre IH]; intros s H; simpl in *.
  - now exists s.
  - destruct s as [|d s]; [discriminate|].
    apply andb_true_iff in H as [Hc Hs].
    apply Ascii.eqb_eq in Hc; subst d.
    destruct (IH _ Hs) as [r ->]. now exists r.
Qed.

Lemma no_break_append (a b : string) :
  no_break (a ++ b) = no_break a && no_break b.
Proof.
  induction a as [|c a IH]; simpl; [reflexivity|].
  now rewrite IH, andb_assoc.
Qed.

Lemma complete_line_intro (b : string) :
  no_break b = true -> complete_line (b ++ nl) = true.
Proof.
  induction b as [|c b IH]; simpl; intros H; [reflexivity|].
  apply andb_true_iff in H as [Hc Hb].
  rewrite Hc, (IH Hb). now destruct b.
Qed.

Lemma complete_line_nonempty (l : string) :
  complete_line l = true -> l <> EmptyString.
Proof. destruct l; simpl; [discriminate | intros _; discriminate]. Qed.

Lemma universal_newlines_line (l rest : string) :
  complete_line l = true ->
  universal_newlines (l ++ rest) = l ++ universal_newlines rest.
Proof.
  induction l as [|c l IH]; intros H; [discriminate|].
  simpl in H. destruct l as [|c' l].
  - apply Ascii.eqb_eq in H; subst c. reflexivity.
  - apply andb_true_iff in H as [Hc Hl].
    unfold is_break in Hc. apply negb_true_iff, orb_false_iff in Hc as [_ Hcr].
    change ((String c (String c' l)) ++ rest)
      with (String c (String c' l ++ rest)).
    cbn [universal_newlines]. rewrite Hcr.
    fold universal_newlines. now rewrite (IH Hl).
Qed.

Lemma split_keepends_line (l rest : string) :
  complete_line l = true ->
  split_keepends (l ++ rest) = (l :: split_keepends rest)%list.
Proof.
  induction l as [|c l IH]; intros H; [discriminate|].
  simpl in H. destruct l as [|c' l].
  - simpl. now rewrite H.
  - apply andb_true_iff in H as [Hc Hl].
    unfold is_break in Hc. apply negb_true_iff, orb_false_iff in Hc as [Hlf _].
    change ((String c (String c' l)) ++ rest)
      with (String c (String c' l ++ rest)).
    cbn [split_keepends]. rewrite Hlf.
    fold split_keepends. now rewrite (IH Hl).
Qed.

Lemma readlines_line (l rest : string) :
  complete_line l = true ->
  readlines (l ++ rest) = (l :: readlines rest)%list.
Proof.
  intros H. unfold readlines.
  now rewrite universal_newlines_line, split_keepends_line.
Qed.

Lemma writelines_app (a b : list string) :
  writelines (a ++ b)%list = writelines a ++ writelines b.
Proof.
  induction a as [|l a IH]; simpl; [reflexivity|].
  now rewrite IH, append_assoc.
Qed.

(** Reading back what [writelines] wrote gives the same lines, as long as
    each of them is one complete line. *)
Lemma readlines_writelines (ls : list string) (rest : string) :
  forallb complete_line ls = true ->
  readlines (writelines ls ++ rest) = (ls ++ readlines rest)%list.
Proof.
  induction ls as [|l ls IH]; simpl; intros H; [reflexivity|].
  apply andb_true_iff in H as [Hl Hls].
  now rewrite append_assoc, readlines_line, IH.
Qed.

Lemma terminated_cons (c : ascii) (x : string) :
  terminated x = true ->
  x <> EmptyString \/ is_break c = true ->
  terminated (String c x) = true.
Proof.
  intros Hx [Hne | Hc]; destruct x; simpl; auto; congruence.
Qed.

Lemma terminated_append (a b : string) :
  b <> EmptyString -> terminated (a ++ b) = terminated b.
Proof.
  intros Hb; induction a as [|c a IH]; [reflexivity|].
  simpl. destruct (a ++ b) eqn:E; [|exact IH].
  destruct a; simpl in E; [contradiction | discriminate].
Qed.

Lemma universal_newlines_nonempty (c : ascii) (s : string) :
  universal_newlines (String c s) <> EmptyString.
Proof. simpl. destruct (Ascii.eqb c CR); discriminate. Qed.

Lemma universal_newlines_two (c c' : ascii) (s : string) :
  universal_newlines (String c (String c' s)) =
  if Ascii.eqb c CR then
    String LF (if Ascii.eqb c' LF then universal_newlines s
               else universal_newlines (String c' s))
  else String c (universal_newlines (String c' s)).
Proof. reflexivity. Qed.

Lemma universal_newlines_one (c : ascii) :
  universal_newlines (String c EmptyString) =
  if Ascii.eqb c CR then String LF EmptyString else String c EmptyString.
Proof. reflexivity. Qed.

Lemma CR_is_not_LF : Ascii.eqb CR LF = false.
Proof. reflexivity. Qed.

(** What a text-mode read delivers holds no carriage return. *)
Lemma universal_newlines_lacks_CR (s : string) :
  lacks CR (universal_newlines s) = true.
Proof.
  induction s as [|c|c c' s IH IH'] using string_pair_ind.
  - reflexivity.
  - rewrite universal_newlines_one.
    destruct (Ascii.eqb c CR) eqn:E; [reflexivity|].
    cbn [lacks]. now rewrite (Ascii.eqb_sym CR c), E.
  - rewrite universal_newlines_two.
    destruct (Ascii.eqb c CR) eqn:E.
    + destruct (Ascii.eqb c' LF); cbn [lacks];
        rewrite CR_is_not_LF, ?IH, ?IH'; reflexivity.
    + cbn [lacks]. now rewrite (Ascii.eqb_sym CR c), E, IH'.
Qed.

Lemma universal_newlines_terminated (s : string) :
  terminated s = true -> terminated (universal_newlines s) = true.
Proof.
  induction s as [|c|c c' s IH IH'] using string_pair_ind; intros H.
  - reflexivity.
  - cbn [terminated] in H. unfold is_break in H.
    rewrite universal_newlines_one.
    destruct (Ascii.eqb c CR) eqn:E; [reflexivity|].
    rewrite orb_false_r in H. cbn [terminated]. unfold is_break.
    now rewrite H.
  - change (terminated (String c' s) = true) in H.
    rewrite universal_newlines_two.
    destruct (Ascii.eqb c CR) eqn:E.
    + apply terminated_cons; [|now right].
      destruct (Ascii.eqb c' LF); [|now apply IH'].
      destruct s; [reflexivity | now apply IH].
    + apply terminated_cons; [now apply IH'|].
      left. apply universal_newlines_nonempty.
Qed.

Lemma split_keepends_nil (t : string) :
  split_keepends t = [] -> t = EmptyString.
Proof.
  destruct t as [|c t]; [reflexivity|]. simpl.
  destruct (Ascii.eqb c LF); [discriminate|].
  destruct (split_keepends t); discriminate.
Qed.

(** When the text ends with a line feed, every line cut from it is
    complete. *)
Lemma split_keepends_complete (t : string) :
  lacks CR t = true -> terminated t = true ->
  forallb complete_line (split_keepends t) = true.
Proof.
  induction t as [|c t IH]; intros Hcr Ht; [reflexivity|].
  cbn [lacks] in Hcr. apply andb_true_iff in Hcr as [Hc Hcr].
  apply negb_true_iff in Hc. rewrite (Ascii.eqb_sym CR c) in Hc.
  cbn [split_keepends]. destruct (Ascii.eqb c LF) eqn:E.
  - cbn [forallb complete_line]. rewrite E. cbn [andb].
    destruct t; [reflexivity|]. now apply IH.
  - destruct t as [|c' t].
    + cbn [terminated] in Ht. unfold is_break in Ht. now rewrite E, Hc in Ht.
    + specialize (IH Hcr Ht).
      destruct (split_keepends (String c' t)) as [|l ls] eqn:El.
      * apply split_keepends_nil in El. discriminate.
      * cbn [forallb] in IH. apply andb_true_iff in IH as [Hl Hls].
        cbn [forallb]. rewrite Hls, andb_true_r.
        destruct l as [|d l]; [discriminate|].
        change (complete_line (String c (String d l)))
          with (negb (is_break c) && complete_line (String d l)).
        unfold is_break. now rewrite E, Hc, Hl.
Qed.

Lemma readlines_complete (content : string) :
  terminated content = true ->
  forallb complete_line (readlines content) = true.
Proof.
  intros H. apply split_keepends_complete.
  - apply universal_newlines_lacks_CR.
  - now apply universal_newlines_terminated.
Qed.

Lemma forallb_filter {A : Type} (P Q : A -> bool) (l : list A) :
  forallb P l = true -> forallb P (filter Q l) = true.
Proof.
  induction l as [|x l IH]; simpl; intros H; [reflexivity|].
  apply andb_true_iff in H as [Hx Hl].
  destruct (Q x); simpl; [rewrite Hx|]; auto.
Qed.

Lemma filter_none {A : Type} (P : A -> bool) (l : list A) :
  (forall x, In x l -> P x = false) -> filter P l = [].
Proof.
  induction l as [|x l IH]; simpl; intros H; [reflexivity|].
  rewrite (H x (or_introl eq_refl)). apply IH. intros y Hy. apply H. now right.
Qed.

Lemma filter_all {A : Type} (P : A -> bool) (l : list A) :
  (forall x, In x l -> P x = true) -> filter P l = l.
Proof.
  induction l as [|x l IH]; simpl; intros H; [reflexivity|].
  rewrite (H x (or_introl eq_refl)). f_equal. apply IH.
  intros y Hy. apply H. now right.
Qed.

Lemma filter_filter_implied {A : Type} (P Q : A -> bool) (l : list A) :
  (forall x, P x = true -> Q x = true) ->
  filter P (filter Q l) = filter P l.
Proof.
  intros H. induction l as [|x l IH]; simpl; [reflexivity|].
  destruct (Q x) eqn:EQ; simpl.
  - now rewrite IH.
  - destruct (P x) eqn:EP; [|exact IH].
    apply H in EP. congruence.
Qed.

(** [slice_to] cuts the text in two, between two characters, and takes [n]
    characters when there are more than [n]. *)
Lemma slice_to_cut (n : nat) (s : string) :
  exists rest,
    s = slice_to n s ++ rest
    /\ (characters s <= n -> rest = EmptyString)
    /\ (n < characters s ->
        characters (slice_to n s) = n
        /\ whole rest = true /\ rest <> EmptyString).
Proof.
  revert n; induction s as [|c s IH]; intros n.
  - exists EmptyString. cbn. repeat split; auto; lia.
  - cbn [slice_to characters]. destruct (is_continuation c) eqn:E.
    + destruct (IH n) as (rest & Hs & Hle & Hgt). exists rest.
      cbn [String.append characters]. rewrite E. cbn [Nat.add].
      repeat split; auto; try (now apply Hgt); congruence.
    + destruct n as [|n].
      * exists (String c s). cbn [String.append characters whole].
        rewrite E. repeat split; try reflexivity; try lia; discriminate.
      * destruct (IH n) as (rest & Hs & Hle & Hgt). exists rest.
        cbn [String.append characters]. rewrite E.
        split; [congruence|]. split.
        -- intros H. apply Hle. lia.
        -- intros H. destruct Hgt as (Hn & Hw & Hne); [lia|].
           repeat split; auto; cbn; lia.
Qed.

(** A text of [n] characters followed by a whole text is cut after the
    [n] characters. *)
Lemma slice_to_prefix (n : nat) (a b : string) :
  characters a = n -> whole b = true -> slice_to n (a ++ b) = a.
Proof.
  revert n; induction a as [|c a IH]; intros n Ha Hb.
  - cbn in Ha. subst n. cbn [String.append].
    destruct b as [|d b]; [reflexivity|].
    cbn [whole] in Hb. apply negb_true_iff in Hb.
    cbn [slice_to]. now rewrite Hb.
  - cbn [characters] in Ha. cbn [String.append slice_to].
    destruct (is_continuation c).
    + now rewrite IH.
    + destruct n as [|n]; [discriminate|].
      cbn in Ha. injection Ha as Ha. now rewrite IH.
Qed.

End PyFacts.

(** ** The Credential Writer *)

Module AddYoutubeCredentialsFacts.
Import Py PyFacts AddYoutubeCredentials.

Lemma length_append (a b : string) :
  String.length (a ++ b) = String.length a + String.length b.
Proof. induction a as [|c a IH]; simpl; [reflexivity | now rewrite IH]. Qed.

Lemma lacks_append (c : ascii) (a b : string) :
  lacks c (a ++ b) = lacks c a && lacks c b.
Proof.
  induction a as [|d a IH]; simpl; [reflexivity|].
  now rewrite IH, andb_assoc.
Qed.

Lemma before_append (c : ascii) (k r : string) :
  lacks c k = true -> before c (k ++ String c r) = k.
Proof.
  induction k as [|d k IH]; simpl; intros H.
  - now rewrite Ascii.eqb_refl.
  - apply andb_true_iff in H as [Hd Hk]. apply negb_true_iff in Hd.
    now rewrite Hd, (IH Hk).
Qed.

(** A line that begins with [k=] has [k] before its first ['=']. *)
Lemma key_of_line (k l : string) :
  lacks EQ k = true -> startswith l (k ++ "=") = true -> before EQ l = k.
Proof.
  intros Hk H. apply startswith_split in H as [r ->].
  rewrite append_assoc. now apply before_append.
Qed.

Lemma append_split (a b x y : string) :
  a ++ x = b ++ y -> String.length b <= String.length a ->
  exists t, a = b ++ t /\ y = t ++ x.
Proof.
  revert a; induction b as [|d b IH]; intros a H Hlen; simpl in *.
  - exists a. now split.
  - destruct a as [|c a]; simpl in *; [lia|].
    injection H as -> H.
    destruct (IH a H ltac:(lia)) as (t & -> & ->). now exists t.
Qed.

Lemma same_suffix (a b x : string) : a ++ x = b ++ x -> a = b.
Proof.
  intros H.
  assert (Hlen : String.length b <= String.length a).
  { apply (f_equal String.length) in H. rewrite !length_append in H. lia. }
  destruct (append_split _ _ _ _ H Hlen) as (t & -> & Ht).
  apply (f_equal String.length) in Ht. rewrite length_append in Ht.
  destruct t; simpl in Ht; [now rewrite append_nil_r | lia].
Qed.

(** The two suffixes never produce the same key. *)
Lemma keys_differ (a b : string) : client_id_key a <> client_secret_key b.
Proof.
  unfold client_id_key, client_secret_key. intros H.
  assert (Hlen : String.length b <= String.length a).
  { apply (f_equal String.length) in H. rewrite !length_append in H.
    simpl in H. lia. }
  destruct (append_split _ _ _ _ H Hlen) as (t & _ & Ht).
  assert (Hl := f_equal String.length Ht).
  rewrite length_append in Hl. simpl in Hl.
  destruct t as [|t1 [|t2 [|t3 [|t4 [|t5 t]]]]]; simpl in Hl; try lia.
  simpl in Ht. discriminate.
Qed.

(** A line cannot belong to two projects whose names hold no ['=']. *)
Lemma one_owner (a b l : string) :
  lacks EQ a = true -> lacks EQ b = true ->
  is_stale a l = true -> is_stale b l = true -> a = b.
Proof.
  intros Ha Hb Hla Hlb. unfold is_stale in *.
  assert (Kid : forall p, lacks EQ p = true ->
                          lacks EQ (client_id_key p) = true).
  { intros p Hp. unfold client_id_key. now rewrite lacks_append, Hp. }
  assert (Ksec : forall p, lacks EQ p = true ->
                           lacks EQ (client_secret_key p) = true).
  { intros p Hp. unfold client_secret_key. now rewrite lacks_append, Hp. }
  apply orb_true_iff in Hla as [Hla | Hla];
    apply orb_true_iff in Hlb as [Hlb | Hlb];
    apply key_of_line in Hla; auto; apply key_of_line in Hlb; auto;
    rewrite Hla in Hlb.
  - now apply same_suffix in Hlb.
  - now apply keys_differ in Hlb.
  - symmetry in Hlb. now apply keys_differ in Hlb.
  - now apply same_suffix in Hlb.
Qed.

Lemma id_line_for_id (p i : string) :
  startswith (id_line p i) (client_id_key p ++ "=") = true.
Proof.
  unfold id_line. rewrite <- append_assoc. apply startswith_append.
Qed.

Lemma secret_line_for_secret (p s : string) :
  startswith (secret_line p s) (client_secret_key p ++ "=") = true.
Proof.
  unfold secret_line. rewrite <- append_assoc. apply startswith_append.
Qed.

Lemma id_line_not_for_secret (p i : string) :
  startswith (id_line p i) (client_secret_key p ++ "=") = false.
Proof.
  unfold id_line, client_id_key, client_secret_key.
  rewrite !append_assoc, startswith_common. reflexivity.
Qed.

Lemma secret_line_not_for_id (p s : string) :
  startswith (secret_line p s) (client_id_key p ++ "=") = false.
Proof.
  unfold secret_line, client_id_key, client_secret_key.
  rewrite !append_assoc, startswith_common. reflexivity.
Qed.

Lemma id_line_stale (p i : string) : is_stale p (id_line p i) = true.
Proof. unfold is_stale. now rewrite id_line_for_id. Qed.

Lemma secret_line_stale (p s : string) :
  is_stale p (secret_line p s) = true.
Proof. unfold is_stale. now rewrite secret_line_for_secret, orb_true_r. Qed.

Lemma id_line_complete (p i : string) :
  no_break p = true -> no_break i = true ->
  complete_line (id_line p i) = true.
Proof.
  intros Hp Hi. unfold id_line, client_id_key.
  rewrite <- !append_assoc. apply complete_line_intro.
  now rewrite !no_break_append, Hp, Hi.
Qed.

Lemma secret_line_complete (p s : string) :
  no_break p = true -> no_break s = true ->
  complete_line (secret_line p s) = true.
Proof.
  intros Hp Hs. unfold secret_line, client_secret_key.
  rewrite <- !append_assoc. apply complete_line_intro.
  now rewrite !no_break_append, Hp, Hs.
Qed.

(** The text written to the store. *)
Lemma store_after_content (fs : store) (p i s : string) :
  store_after fs p i s =
  Some (writelines (other_lines p fs) ++ id_line p i ++ secret_line p s).
Proof.
  unfold store_after, add_youtube_credentials, new_lines, other_lines.
  cbn [fst]. rewrite !writelines_app. cbn [writelines fold_right].
  now rewrite !append_nil_r, append_assoc.
Qed.

(** After a write the store always ends with a line feed. *)
Lemma store_after_terminated (fs : store) (p i s : string) :
  store_terminated (store_after fs p i s) = true.
Proof.
  rewrite store_after_content. cbn [store_terminated].
  unfold secret_line. rewrite <- !append_assoc.
  rewrite terminated_append; [reflexivity | discriminate].
Qed.

Lemma read_store_complete (fs : store) :
  store_terminated fs = true ->
  forallb complete_line (read_store fs) = true.
Proof.
  destruct fs as [content|]; cbn; [apply readlines_complete | reflexivity].
Qed.

(** The lines of the store after a write: the lines kept, then whatever the
    two appended strings read back as. *)
Lemma read_back (fs : store) (p i s : string) :
  store_terminated fs = true ->
  read_store (store_after fs p i s) =
  (other_lines p fs ++ readlines (id_line p i ++ secret_line p s))%list.
Proof.
  intros Hfs. rewrite store_after_content. cbn [read_store].
  apply readlines_writelines. unfold other_lines.
  now apply forallb_filter, read_store_complete.
Qed.

Lemma read_back_clean (fs : store) (p i s : string) :
  store_terminated fs = true ->
  no_break p = true -> no_break i = true -> no_break s = true ->
  read_store (store_after fs p i s) =
  (other_lines p fs ++ [id_line p i; secret_line p s])%list.
Proof.
  intros Hfs Hp Hi Hs. rewrite read_back by exact Hfs. f_equal.
  rewrite readlines_line by now apply id_line_complete.
  replace (secret_line p s) with (secret_line p s ++ EmptyString) at 1
    by apply append_nil_r.
  rewrite readlines_line by now apply secret_line_complete.
  reflexivity.
Qed.

Lemma stale_in_other_lines (p : string) (fs : store) (l : string) :
  In l (other_lines p fs) -> is_stale p l = false.
Proof.
  unfold other_lines. intros H. apply filter_In in H as [_ H].
  now apply negb_true_iff in H.
Qed.

(** The invariant of a write, for a store and arguments free of stray line
    breaks. *)
Lemma upserted_clean (fs : store) (p i s : string) :
  store_terminated fs = true ->
  no_break p = true -> no_break i = true -> no_break s = true ->
  upserted fs p i s.
Proof.
  intros Hfs Hp Hi Hs. unfold upserted, lines_for.
  unfold other_lines at 1.
  rewrite (read_back_clean fs p i s Hfs Hp Hi Hs).
  rewrite !filter_app. cbn [filter].
  rewrite id_line_for_id, secret_line_for_secret,
    id_line_not_for_secret, secret_line_not_for_id,
    id_line_stale, secret_line_stale.
  cbn [negb]. repeat split.
  - rewrite filter_none; [reflexivity|].
    intros l Hl. apply stale_in_other_lines in Hl.
    now apply orb_false_iff in Hl as [Hl _].
  - rewrite filter_none; [reflexivity|].
    intros l Hl. apply stale_in_other_lines in Hl.
    now apply orb_false_iff in Hl as [_ Hl].
  - rewrite app_nil_r. apply filter_all.
    intros l Hl. apply stale_in_other_lines in Hl. now rewrite Hl.
Qed.

End AddYoutubeCredentialsFacts.

Module AddYoutubeCredentialsSpec.
Import Py PyFacts AddYoutubeCredentials AddYoutubeCredentialsFacts.

(** C1, as amended.  When the store is absent, empty or ends with a line
    terminator, and the project name, the client id and the client secret
    hold no line break, the store after the write has exactly one line for
    each of the two derived keys, holding the values just supplied, and all
    the lines that do not begin with a derived key followed by ['='] are
    the same as before, in the same order. *)
Theorem write_upserts (fs : store) (p i s : string) :
  store_terminated fs = true ->
  no_break p = true -> no_break i = true -> no_break s = true ->
  upserted fs p i s.
Proof. apply upserted_clean. Qed.

Lemma write_upserts_witness :
  upserted (Some ("A=1" ++ nl ++ "P_YouTube_Client_ID=old" ++ nl))
    "P" "id" "secret".
Proof. apply write_upserts; reflexivity. Defined.

(** C1 as stated fails.  With a client id that holds a line feed, the line
    of the id key holds only the part before it; and when the last line of
    the store has no line terminator, the id line is glued to it, so that no
    line begins with the id key and the old last line has changed. *)
Lemma write_upserts_counterexample :
  ~ upserted None "P" ("a" ++ nl ++ "b") "s"
  /\ ~ upserted (Some "A=1") "P" "i" "s".
Proof.
  split; intros (H & _); vm_compute in H; discriminate H.
Qed.

(** C2, as amended.  On an absent or empty store, the write leaves the text
    made of the id line followed by the secret line; when the project name,
    the client id and the client secret hold no line break, these are
    exactly the two lines of the store. *)
Theorem first_write (fs : store) (p i s : string) :
  fs = None \/ fs = Some EmptyString ->
  store_after fs p i s = Some (id_line p i ++ secret_line p s)
  /\ (no_break p = true -> no_break i = true -> no_break s = true ->
      holds_only (store_after fs p i s) p i s).
Proof.
  intros Hfs. split.
  - rewrite store_after_content. now destruct Hfs as [-> | ->].
  - intros Hp Hi Hs. unfold holds_only.
    rewrite read_back_clean by (destruct Hfs as [-> | ->]; auto).
    now destruct Hfs as [-> | ->].
Qed.

Lemma first_write_witness :
  store_after None "P" "id" "secret"
  = Some (id_line "P" "id" ++ secret_line "P" "secret")
  /\ holds_only (store_after None "P" "id" "secret") "P" "id" "secret".
Proof.
  destruct (first_write None "P" "id" "secret") as [Htext Hlines];
    [left; reflexivity|].
  split; [exact Htext | apply Hlines; reflexivity].
Defined.

(** C2 as stated fails: a client id with a line feed in it gives a store of
    three lines. *)
Lemma first_write_counterexample :
  ~ holds_only (store_after None "P" ("a" ++ nl ++ "b") "s")
      "P" ("a" ++ nl ++ "b") "s".
Proof. intros H. vm_compute in H. discriminate H. Qed.

(** C3, as amended.  Whatever the store and the first pair of values, when
    the project name and the second pair of values hold no line break, two
    writes for the project leave exactly one line for each derived key,
    holding the second values. *)
Theorem second_write_replaces (fs : store) (p i1 s1 i2 s2 : string) :
  no_break p = true -> no_break i2 = true -> no_break s2 = true ->
  second_write_wins fs p i1 s1 i2 s2.
Proof.
  intros Hp Hi Hs. unfold second_write_wins.
  destruct (upserted_clean (store_after fs p i1 s1) p i2 s2) as (H1 & H2 & _);
    auto using store_after_terminated.
Qed.

Lemma second_write_replaces_witness :
  second_write_wins (Some "A=1") "P" "id1" "secret1" "id2" "secret2".
Proof. apply second_write_replaces; reflexivity. Defined.

(** C3 as stated fails.  With a line feed in the project name no stored line
    begins with a derived key, so the second write removes nothing: the
    store keeps the lines of both writes and has no line for the key. *)
Lemma second_write_replaces_counterexample :
  ~ second_write_wins None ("A" ++ nl ++ "B") "a" "b" "c" "d".
Proof. intros (H & _). vm_compute in H. discriminate H. Qed.

(** C4, as amended.  When the store is absent, empty or ends with a line
    terminator, a write for project [b] keeps every stored line that does
    not begin with one of the derived keys of [b] followed by ['='],
    unchanged and in order; and when [a] and [b] are different names
    without ['='], the lines of [a] are among them. *)
Theorem other_projects_kept (fs : store) (a b i s : string) :
  store_terminated fs = true ->
  (exists added,
      read_store (store_after fs b i s) = (other_lines b fs ++ added)%list)
  /\ (a <> b -> lacks EQ a = true -> lacks EQ b = true ->
      isolated fs a b i s).
Proof.
  intros Hfs.
  assert (Hkept : exists added,
             read_store (store_after fs b i s)
             = (other_lines b fs ++ added)%list).
  { eexists. now apply read_back. }
  split; [exact Hkept|].
  intros Hab Ha Hb. split; [|exact Hkept].
  unfold lines_of. rewrite read_back by exact Hfs.
  rewrite filter_app. eexists. f_equal.
  unfold other_lines. apply filter_filter_implied.
  intros l Hl. apply negb_true_iff.
  destruct (is_stale b l) eqn:E; [|reflexivity].
  exfalso. apply Hab. now apply (one_owner a b l).
Qed.

Lemma other_projects_kept_witness :
  isolated (Some ("A_YouTube_Client_ID=x" ++ nl)) "A" "B" "i" "s".
Proof.
  apply (other_projects_kept _ "A" "B" "i" "s");
    [reflexivity | discriminate | reflexivity | reflexivity].
Defined.

(** C4 as stated fails.  When the last line of the store, a line of project
    A, has no line terminator, the id line of B is glued to it; and a
    project name that extends a derived key of B has its lines removed by
    the write for B. *)
Lemma other_projects_kept_counterexample :
  ~ isolated (Some ("A_YouTube_Client_ID=x" ++ nl ++ "A_YouTube_Client_Secret=y"))
      "A" "B" "i" "s"
  /\ ~ isolated (Some ("X_YouTube_Client_ID=foo_YouTube_Client_ID=v" ++ nl))
         "X_YouTube_Client_ID=foo" "X" "i" "s".
Proof.
  split; intros ((added & H) & _); vm_compute in H; discriminate H.
Qed.

(** C8, as amended.  The confirmation is made of four lines: the project
    name, the whole client id, a preview of the secret followed by three
    dots, and the two derived keys.  The preview is the secret cut after
    its tenth character: all of it when it has at most ten characters,
    its first ten characters otherwise.  Nothing else of the secret reaches
    standard output: two runs whose secrets have the same first ten
    characters print the same text, whatever comes after them. *)
Theorem secret_preview (argv0 p i : string) (fs : store) :
  (forall s,
      exists shown rest,
        s = shown ++ rest
        /\ (characters s <= 10 -> rest = EmptyString)
        /\ (10 < characters s ->
            characters shown = 10
            /\ whole rest = true /\ rest <> EmptyString)
        /\ stdout (main [argv0; p; i; s] fs)
           = "✅ YouTube credentials added for project: " ++ p ++ nl
             ++ "   Client ID: " ++ i ++ nl
             ++ "   Client Secret: " ++ shown ++ "..." ++ nl
             ++ "   Keys added to api_keys.txt: " ++ client_id_key p ++ ", "
             ++ client_secret_key p ++ nl)
  /\ (forall (a b b' : string) (fs' : store),
        characters a = 10 -> whole b = true -> whole b' = true ->
        stdout (main [argv0; p; i; a ++ b] fs)
        = stdout (main [argv0; p; i; a ++ b'] fs')).
Proof.
  split.
  - intros s. destruct (slice_to_cut 10 s) as (rest & Hs & Hle & Hgt).
    exists (slice_to 10 s), rest. repeat split; auto; try (now apply Hgt).
    change (stdout (main [argv0; p; i; s] fs)) with (confirmation p i s).
    unfold confirmation, print. rewrite !append_assoc. reflexivity.
  - intros a b b' fs' Ha Hb Hb'.
    change (confirmation p i (a ++ b) = confirmation p i (a ++ b')).
    unfold confirmation. now rewrite !slice_to_prefix.
Qed.

Lemma secret_preview_witness :
  stdout (main ["prog"; "P"; "id"; "GOCSPX-sec" ++ "ret123"] None)
  = stdout (main ["prog"; "P"; "id"; "GOCSPX-sec" ++ "XYZ"] (Some "A=1")).
Proof.
  apply (proj2 (secret_preview "prog" "P" "id" None)
           "GOCSPX-sec" "ret123" "XYZ" (Some "A=1"));
    reflexivity.
Defined.

(** C8 as stated fails: a secret of ten characters or fewer is its own
    preview, and is printed whole before the three dots. *)
Lemma secret_preview_counterexample :
  ~ secret_withheld "prog" "P" "id" "GOCSPX-123" None.
Proof.
  intros H. apply H.
  exists ("✅ YouTube credentials added for project: P" ++ nl
          ++ "   Client ID: id" ++ nl ++ "   Client Secret: "),
    ("..." ++ nl
     ++ "   Keys added to api_keys.txt: P_YouTube_Client_ID, P_YouTube_Client_Secret"
     ++ nl).
  reflexivity.
Qed.

(** C9.  With anything but three arguments after the program name, the
    script prints its usage text, exits with status 1 and leaves the store
    as it found it, absent or not. *)
Theorem wrong_argument_count (argv : list string) (fs : store) :
  List.length argv <> 4 ->
  main argv fs = mkOutcome (__doc__ ++ nl) 1 fs.
Proof.
  intros H. unfold main.
  destruct (Nat.eqb_spec (List.length argv) 4) as [E | E]; [contradiction|].
  reflexivity.
Qed.

Lemma wrong_argument_count_witness :
  main ["prog"; "P"; "id"] None = mkOutcome (__doc__ ++ nl) 1 None
  /\ main ["prog"; "P"; "id"; "secret"; "more"] (Some "A=1")
     = mkOutcome (__doc__ ++ nl) 1 (Some "A=1").
Proof.
  split; apply wrong_argument_count; cbn; lia.
Defined.

End AddYoutubeCredentialsSpec.

(** ** The Credential Extractor *)

Module ExtractCredentialsFacts.
Import Py PyFacts ExtractCredentials.

(** What [main] does with one path argument, given what
    [extract_credentials] printed and returned. *)
Lemma main_one_argument render load (argv0 path : string) :
  main render load [argv0; path] =
  match extract_credentials path (load path) with
  | (out, Some c) =>
      mkOutcome
        (print (print out ("clientId=" ++ format render (client_id c)))
           ("clientSecret=" ++ format render (client_secret c))) 0
  | (out, None) => mkOutcome out 1
  end.
Proof.
  unfold main. cbn [List.length Nat.eqb negb nth].
  now destruct (extract_credentials path (load path)) as [out [c|]].
Qed.

(** On an object, the body of the [try] reads the fields of the probed
    section, or reports that there is none. *)
Lemma try_body_dict (items : list (string * value)) :
  try_body (Ok (VDict items)) =
  match probed_section items with
  | Some section => read_fields section
  | None => Ok (print EmptyString no_section_msg, None)
  end.
Proof.
  unfold try_body, probed_section. cbn [bind py_in py_getitem].
  destruct (dict_get "installed" items) as [inst|]; [reflexivity|].
  cbn [bind py_in py_getitem].
  now destruct (dict_get "web" items).
Qed.

Lemma read_fields_dict (fields : list (string * value)) :
  read_fields (VDict fields) =
  if negb (truthy (field fields "client_id"))
     || negb (truthy (field fields "client_secret"))
  then Ok (print EmptyString missing_field_msg, None)
  else Ok (EmptyString,
           Some (mkCredentials (field fields "client_id")
                   (field fields "client_secret"))).
Proof. reflexivity. Qed.

Lemma read_fields_not_dict (section : value) :
  is_dict section = false ->
  read_fields section =
  Raise (Exception ("'" ++ type_name section
                        ++ "' object has no attribute 'get'")).
Proof. now destruct section. Qed.

(** A run on an object whose probed section is an object with two true
    fields prints them. *)
Lemma main_prints_section render load (argv0 path : string) items fields :
  load path = Ok (VDict items) ->
  probed_section items = Some (VDict fields) ->
  truthy (field fields "client_id") = true ->
  truthy (field fields "client_secret") = true ->
  main render load [argv0; path] =
  mkOutcome
    ("clientId=" ++ format render (field fields "client_id") ++ nl
     ++ "clientSecret=" ++ format render (field fields "client_secret") ++ nl)
    0.
Proof.
  intros Hload Hsec Hid Hsecret.
  rewrite main_one_argument, Hload. unfold extract_credentials.
  rewrite try_body_dict, Hsec, read_fields_dict, Hid, Hsecret.
  cbn [negb orb client_id client_secret]. unfold print.
  cbn [String.append]. now rewrite !append_assoc.
Qed.

End ExtractCredentialsFacts.

Module ExtractCredentialsSpec.
Import Py PyFacts ExtractCredentials ExtractCredentialsFacts.

(** C5, as amended.  For non-empty strings X and Y, a run on the document
    with an [installed] section holding X and Y, or on the one with a [web]
    section holding them, prints [clientId=X] and [clientSecret=Y], in that
    order and nothing else, and exits with status 0. *)
Theorem round_trip render load (argv0 path X Y : string) :
  X <> EmptyString -> Y <> EmptyString ->
  load path = Ok (installed_doc X Y) \/ load path = Ok (web_doc X Y) ->
  main render load [argv0; path] = printed_pair X Y.
Proof.
  intros HX HY Hload.
  apply String.eqb_neq in HX, HY.
  assert (Hid : truthy (VStr X) = true) by (cbn; now rewrite HX).
  assert (Hsecret : truthy (VStr Y) = true) by (cbn; now rewrite HY).
  destruct Hload as [Hload | Hload];
    exact (main_prints_section render load argv0 path _
             [("client_id", VStr X); ("client_secret", VStr Y)]
             Hload eq_refl Hid Hsecret).
Qed.

Lemma round_trip_witness :
  main (fun _ => EmptyString) (fun _ => Ok (web_doc "X" "Y"))
    ["prog"; "client_secret.json"]
  = printed_pair "X" "Y".
Proof.
  apply round_trip; [discriminate | discriminate | right; reflexivity].
Defined.

(** C5 as stated fails: with an empty client id the script reports a
    missing field and exits with status 1. *)
Lemma round_trip_counterexample :
  main (fun _ => EmptyString) (fun _ => Ok (installed_doc EmptyString "Y"))
    ["prog"; "client_secret.json"]
  <> printed_pair EmptyString "Y".
Proof. intros H. vm_compute in H. discriminate H. Qed.

(** C6.  On a document with both an [installed] and a [web] entry the run
    is the run on the document reduced to its [installed] entry; when that
    entry is an object with a true [client_id] and [client_secret], these
    are the two values printed. *)
Theorem installed_first render load (argv0 path : string) items inst web :
  load path = Ok (VDict items) ->
  dict_get "installed" items = Some inst ->
  dict_get "web" items = Some web ->
  main render load [argv0; path]
  = main render (fun _ => Ok (VDict [("installed", inst)])) [argv0; path]
  /\ forall fields,
      inst = VDict fields ->
      truthy (field fields "client_id") = true ->
      truthy (field fields "client_secret") = true ->
      main render load [argv0; path]
      = mkOutcome
          ("clientId=" ++ format render (field fields "client_id") ++ nl
           ++ "clientSecret=" ++ format render (field fields "client_secret")
           ++ nl) 0.
Proof.
  intros Hload Hinst _. split.
  - rewrite !main_one_argument, Hload. unfold extract_credentials.
    rewrite !try_body_dict. unfold probed_section. now rewrite Hinst.
  - intros fields -> Hid Hsecret.
    apply (main_prints_section render load argv0 path items fields); auto.
    unfold probed_section. now rewrite Hinst.
Qed.

Lemma installed_first_witness :
  main (fun _ => EmptyString)
    (fun _ =>
       Ok (VDict
             [("web",
               VDict [("client_id", VStr "C"); ("client_secret", VStr "D")]);
              ("installed",
               VDict [("client_id", VStr "A"); ("client_secret", VStr "B")])]))
    ["prog"; "f"]
  = main (fun _ => EmptyString)
      (fun _ =>
         Ok (VDict
               [("installed",
                 VDict [("client_id", VStr "A");
                        ("client_secret", VStr "B")])]))
      ["prog"; "f"].
Proof.
  apply (installed_first (fun _ => EmptyString)
           (fun _ =>
              Ok (VDict
                    [("web",
                      VDict [("client_id", VStr "C");
                             ("client_secret", VStr "D")]);
                     ("installed",
                      VDict [("client_id", VStr "A");
                             ("client_secret", VStr "B")])]))
           "prog" "f"
           [("web",
             VDict [("client_id", VStr "C"); ("client_secret", VStr "D")]);
            ("installed",
             VDict [("client_id", VStr "A"); ("client_secret", VStr "B")])]
           (VDict [("client_id", VStr "A"); ("client_secret", VStr "B")])
           (VDict [("client_id", VStr "C"); ("client_secret", VStr "D")]));
    reflexivity.
Defined.

(** C7, as amended.  In each of the four failures (file not found, invalid
    JSON, no [installed] or [web] section, a field missing or empty) the
    run exits with status 1 after printing, on standard output, the one
    line of the message for that failure, and nothing else. *)
Theorem failure_reported render load (argv0 path msg : string) :
  failure path (load path) msg ->
  main render load [argv0; path] = mkOutcome (msg ++ nl) 1.
Proof.
  intros H. rewrite main_one_argument. unfold extract_credentials.
  inversion H as [E | E | items Hi Hw E | items fields Hsec Hfield E];
    try reflexivity.
  - rewrite try_body_dict. unfold probed_section. now rewrite Hi, Hw.
  - rewrite try_body_dict, Hsec, read_fields_dict.
    now destruct Hfield as [-> | ->]; rewrite ?orb_true_r.
Qed.

Lemma failure_reported_witness :
  main (fun _ => EmptyString) (fun _ => Ok (VDict [("other", VInt 1)]))
    ["prog"; "f"]
  = mkOutcome (no_section_msg ++ nl) 1.
Proof.
  apply failure_reported. now apply failure_no_section.
Defined.

(** C7 as stated fails: the message of a failure is printed with [print],
    on standard output.  Here the file does not exist. *)
Lemma failure_reported_counterexample :
  failure "missing.json" (Raise FileNotFoundError)
    (not_found_msg "missing.json")
  /\ ~ silent_failure
         (main (fun _ => EmptyString) (fun _ => Raise FileNotFoundError)
            ["prog"; "missing.json"]).
Proof.
  split; [constructor|]. intros [_ H]. vm_compute in H. discriminate H.
Qed.

(** What the script prints on a document of the wrong shape: one message,
    which is not a credential line, and nothing is returned. *)
Lemma shape_error_message (path : string) (data : value) :
  probed_misshapen data = true ->
  exists msg,
    extract_credentials path (Ok data) = (print EmptyString msg, None)
    /\ no_credential_line (print EmptyString msg) = true.
Proof.
  intros H. unfold extract_credentials.
  destruct data as [| b | z | f | s | elems | items].
  - eexists; split; reflexivity.
  - eexists; split; reflexivity.
  - eexists; split; reflexivity.
  - eexists; split; reflexivity.
  - unfold try_body. cbn [bind py_in].
    destruct (contains s "installed");
      [eexists; split; reflexivity|].
    cbn [bind py_in].
    destruct (contains s "web"); eexists; split; reflexivity.
  - unfold try_body. cbn [bind py_in].
    destruct (existsb (is_str "installed") elems);
      [eexists; split; reflexivity|].
    cbn [bind py_in].
    destruct (existsb (is_str "web") elems); eexists; split; reflexivity.
  - rewrite try_body_dict. cbn [probed_misshapen] in H.
    destruct (probed_section items) as [section|]; [|discriminate].
    apply negb_true_iff in H. rewrite (read_fields_not_dict _ H).
    destruct section; try discriminate; eexists; split; reflexivity.
Qed.

(** C10, as amended.  When the document parses but its top level is not an
    object, or the section the script reads ([installed] when present,
    otherwise [web]) is not an object, [extract_credentials] returns
    nothing, and the run exits with status 1 without printing a
    [clientId=] or [clientSecret=] line. *)
Theorem shape_error_rejected render load (argv0 path : string) data :
  load path = Ok data ->
  probed_misshapen data = true ->
  rejected (main render load [argv0; path])
  /\ snd (extract_credentials path (Ok data)) = None.
Proof.
  intros Hload H.
  destruct (shape_error_message path data H) as (msg & Hrun & Hout).
  rewrite main_one_argument, Hload, Hrun. now split.
Qed.

Lemma shape_error_rejected_witness :
  rejected
    (main (fun _ => EmptyString)
       (fun _ => Ok (VDict [("installed", VStr "client")])) ["prog"; "f"]).
Proof.
  apply (shape_error_rejected (fun _ => EmptyString)
           (fun _ => Ok (VDict [("installed", VStr "client")])) "prog" "f"
           (VDict [("installed", VStr "client")]));
    reflexivity.
Defined.

(** C10 as stated fails: when the [installed] entry is a good object, a
    [web] entry that is not an object is never looked at, and the run
    prints the credentials and exits with status 0. *)
Lemma shape_error_rejected_counterexample :
  misshapen
    (VDict
       [("installed",
         VDict [("client_id", VStr "X"); ("client_secret", VStr "Y")]);
        ("web", VInt 5)])
  = true
  /\ ~ rejected
         (main (fun _ => EmptyString)
            (fun _ =>
               Ok (VDict
                     [("installed",
                       VDict [("client_id", VStr "X");
                              ("client_secret", VStr "Y")]);
                      ("web", VInt 5)]))
            ["prog"; "f"]).
Proof.
  split; [reflexivity|]. intros [H _]. vm_compute in H. discriminate H.
Qed.

End ExtractCredentialsSpec.

(** ** More on the Credential Writer *)

Module AddYoutubeCredentialsMore.
Import Py PyFacts AddYoutubeCredentials AddYoutubeCredentialsFacts.

Lemma universal_newlines_plain (t : string) :
  lacks CR t = true -> universal_newlines t = t.
Proof.
  induction t as [|c t IH]; intros H; [reflexivity|].
  cbn [lacks] in H. apply andb_true_iff in H as [Hc Ht].
  apply negb_true_iff in Hc. rewrite (Ascii.eqb_sym CR c) in Hc.
  cbn [universal_newlines]. rewrite Hc. fold universal_newlines.
  now rewrite (IH Ht).
Qed.

Lemma writelines_cons (l : string) (ls : list string) :
  writelines (l :: ls) = l ++ writelines ls.
Proof. reflexivity. Qed.

(** Cutting a text into lines and gluing them again gives the text. *)
Lemma writelines_split_keepends (t : string) :
  writelines (split_keepends t) = t.
Proof.
  induction t as [|c t IH]; [reflexivity|].
  cbn [split_keepends]. destruct (Ascii.eqb c LF) eqn:E.
  - rewrite writelines_cons, IH. reflexivity.
  - destruct (split_keepends t) as [|l ls] eqn:El.
    + apply split_keepends_nil in El. now subst t.
    + rewrite writelines_cons in *. cbn [String.append]. now rewrite IH.
Qed.

Lemma split_keepends_lacks_CR (t : string) :
  lacks CR t = true -> forallb (lacks CR) (split_keepends t) = true.
Proof.
  induction t as [|c t IH]; intros H; [reflexivity|].
  cbn [lacks] in H. apply andb_true_iff in H as [Hc Ht].
  specialize (IH Ht). cbn [split_keepends].
  destruct (Ascii.eqb c LF) eqn:E.
  - cbn [forallb lacks]. now rewrite Hc, IH.
  - destruct (split_keepends t) as [|l ls]; cbn [forallb lacks] in *.
    + now rewrite Hc.
    + apply andb_true_iff in IH as [Hl Hls]. now rewrite Hc, Hl, Hls.
Qed.

Lemma writelines_lacks (c : ascii) (ls : list string) :
  forallb (lacks c) ls = true -> lacks c (writelines ls) = true.
Proof.
  induction ls as [|l ls IH]; intros H; [reflexivity|].
  cbn [forallb] in H. apply andb_true_iff in H as [Hl Hls].
  rewrite writelines_cons, lacks_append, Hl. now apply IH.
Qed.

Lemma read_store_lacks_CR (fs : store) :
  forallb (lacks CR) (read_store fs) = true.
Proof.
  destruct fs as [t|]; [|reflexivity].
  apply split_keepends_lacks_CR, universal_newlines_lacks_CR.
Qed.

Lemma filter_negb_all {A : Type} (P : A -> bool) (l : list A) :
  filter P l = [] -> filter (fun x => negb (P x)) l = l.
Proof.
  induction l as [|x l IH]; cbn [filter]; intros H; [reflexivity|].
  destruct (P x); [discriminate|]. cbn [negb]. now rewrite IH.
Qed.

Lemma filter_negb_none {A : Type} (P : A -> bool) (l : list A) :
  filter P (filter (fun x => negb (P x)) l) = [].
Proof.
  induction l as [|x l IH]; cbn [filter]; [reflexivity|].
  destruct (P x) eqn:E; cbn [negb filter]; [exact IH|].
  now rewrite E.
Qed.

(** X1.  The derived keys tell the project and the kind of credential: two
    id keys, or two secret keys, are equal only for the same project name,
    and an id key is never a secret key. *)
Theorem derived_keys_unambiguous (a b : string) :
  (client_id_key a = client_id_key b -> a = b)
  /\ (client_secret_key a = client_secret_key b -> a = b)
  /\ client_id_key a <> client_secret_key b.
Proof.
  repeat split.
  - apply same_suffix.
  - apply same_suffix.
  - apply keys_differ.
Qed.

Lemma derived_keys_unambiguous_witness :
  client_id_key "P" <> client_secret_key "P_YouTube_Client_ID".
Proof.
  exact (proj2 (proj2 (derived_keys_unambiguous "P" "P_YouTube_Client_ID"))).
Defined.

(** X2.  When the text of the store has no carriage return and none of its
    lines belongs to the project, the write only appends: the new text is
    the old one followed by the id line and the secret line.  No line
    terminator is put in between. *)
Theorem new_project_appends (t p i s : string) :
  lacks CR t = true ->
  lines_of p (Some t) = [] ->
  store_after (Some t) p i s = Some (t ++ id_line p i ++ secret_line p s).
Proof.
  intros Ht Hnone. rewrite store_after_content. f_equal. f_equal.
  unfold other_lines. rewrite (filter_negb_all _ _ Hnone).
  cbn [read_store]. unfold readlines.
  now rewrite universal_newlines_plain, writelines_split_keepends.
Qed.

Lemma new_project_appends_witness :
  store_after (Some "A=1") "P" "i" "s"
  = Some ("A=1" ++ id_line "P" "i" ++ secret_line "P" "s").
Proof. apply new_project_appends; reflexivity. Defined.

(** X3.  Writing the same values again changes nothing: on a store that is
    absent, empty or ends with a line terminator, and with arguments free of
    line breaks, the second of two identical writes leaves the text of the
    first. *)
Theorem same_write_twice (fs : store) (p i s : string) :
  store_terminated fs = true ->
  no_break p = true -> no_break i = true -> no_break s = true ->
  store_after (store_after fs p i s) p i s = store_after fs p i s.
Proof.
  intros Hfs Hp Hi Hs.
  destruct (upserted_clean fs p i s Hfs Hp Hi Hs) as (_ & _ & Hother).
  rewrite (store_after_content (store_after fs p i s)), Hother.
  symmetry. apply store_after_content.
Qed.

Lemma same_write_twice_witness :
  store_after (store_after (Some ("A=1" ++ nl)) "P" "i" "s") "P" "i" "s"
  = store_after (Some ("A=1" ++ nl)) "P" "i" "s".
Proof. apply same_write_twice; reflexivity. Defined.

(** X4.  The lines of the project always come last, the id line before the
    secret line: on a store that is absent, empty or ends with a line
    terminator, and with arguments free of line breaks, the store after the
    write is made of the lines of the other keys, in their order, then the
    id line, then the secret line. *)
Theorem written_last (fs : store) (p i s : string) :
  store_terminated fs = true ->
  no_break p = true -> no_break i = true -> no_break s = true ->
  read_store (store_after fs p i s)
  = (other_lines p fs ++ [id_line p i; secret_line p s])%list.
Proof. apply read_back_clean. Qed.

Lemma written_last_witness :
  read_store
    (store_after
       (Some ("P_YouTube_Client_ID=old" ++ nl ++ "A=1" ++ nl)) "P" "i" "s")
  = ["A=1" ++ nl; id_line "P" "i"; secret_line "P" "s"].
Proof.
  apply (written_last
           (Some ("P_YouTube_Client_ID=old" ++ nl ++ "A=1" ++ nl))
           "P" "i" "s"); reflexivity.
Defined.

(** X5.  The store is rewritten with line feeds only: when the arguments
    hold no carriage return, the text after the write holds none, whatever
    line terminators the store had. *)
Theorem line_endings_normalised (fs : store) (p i s : string) :
  lacks CR p = true -> lacks CR i = true -> lacks CR s = true ->
  exists t, store_after fs p i s = Some t /\ lacks CR t = true.
Proof.
  intros Hp Hi Hs. eexists. split; [apply store_after_content|].
  unfold id_line, secret_line, client_id_key, client_secret_key.
  rewrite !lacks_append, Hp, Hi, Hs.
  rewrite writelines_lacks; [reflexivity|].
  unfold other_lines. apply forallb_filter, read_store_lacks_CR.
Qed.

Lemma line_endings_normalised_witness :
  exists t,
    store_after (Some ("A=1" ++ String CR nl ++ "B=2" ++ String CR nl))
      "P" "i" "s" = Some t
    /\ lacks CR t = true.
Proof. apply line_endings_normalised; reflexivity. Defined.

(** X6.  After a write the file exists and its text ends with a line feed,
    whatever the store and the arguments were. *)
Theorem write_terminates_store (fs : store) (p i s : string) :
  exists body, store_after fs p i s = Some (body ++ nl).
Proof.
  eexists. rewrite store_after_content. unfold secret_line.
  now rewrite <- !append_assoc.
Qed.

Lemma run_all_snoc (fs : store) (runs : list arguments) (p i s : string) :
  run_all fs (runs ++ [(p, i, s)]) = store_after (run_all fs runs) p i s.
Proof. unfold run_all. now rewrite fold_left_app. Qed.

Lemma latest_snoc (q : string) (runs : list arguments) (p i s : string) :
  latest q (runs ++ [(p, i, s)])
  = if String.eqb p q then Some (i, s) else latest q runs.
Proof. unfold latest. now rewrite fold_left_app. Qed.

Lemma run_all_terminated (fs : store) (runs : list arguments) :
  store_terminated fs = true -> store_terminated (run_all fs runs) = true.
Proof.
  intros Hfs. destruct runs as [|r runs _] using rev_ind; [exact Hfs|].
  destruct r as [[p i] s]. rewrite run_all_snoc.
  apply store_after_terminated.
Qed.

(** After a write for the project, its lines are the two just written. *)
Lemma lines_of_after_same (fs : store) (p i s : string) :
  store_terminated fs = true ->
  no_break p = true -> no_break i = true -> no_break s = true ->
  lines_of p (store_after fs p i s) = [id_line p i; secret_line p s].
Proof.
  intros Hfs Hp Hi Hs. unfold lines_of.
  rewrite read_back_clean by assumption.
  rewrite filter_app. unfold other_lines. rewrite filter_negb_none.
  cbn [filter app]. now rewrite id_line_stale, secret_line_stale.
Qed.

(** After a write for another project, its lines are what they were. *)
Lemma lines_of_after_other (fs : store) (p q i s : string) :
  store_terminated fs = true ->
  no_break q = true -> no_break i = true -> no_break s = true ->
  lacks EQ p = true -> lacks EQ q = true -> p <> q ->
  lines_of p (store_after fs q i s) = lines_of p fs.
Proof.
  intros Hfs Hq Hi Hs Hp Hq' Hpq. unfold lines_of.
  rewrite read_back_clean by assumption.
  assert (Hown : forall l, is_stale q l = true -> is_stale p l = false).
  { intros l Hl. destruct (is_stale p l) eqn:E; [|reflexivity].
    exfalso. apply Hpq. now apply (one_owner p q l). }
  rewrite filter_app. cbn [filter].
  rewrite (Hown _ (id_line_stale q i)), (Hown _ (secret_line_stale q s)).
  rewrite app_nil_r. unfold other_lines. apply filter_filter_implied.
  intros l Hl. apply negb_true_iff.
  destruct (is_stale q l) eqn:E; [|reflexivity].
  apply Hown in E. congruence.
Qed.

(** X7.  Last write wins, over any number of runs.  Start from a store that
    is absent, empty or ends with a line terminator, and make any runs whose
    arguments hold no line break and whose project names hold no ['='].
    Then, for a project name without ['='], the lines of the project are
    the id line and the secret line of the latest run for that project, or,
    if there was no such run, the lines it had at the start. *)
Theorem latest_write_wins (fs : store) (runs : list arguments) (p : string) :
  store_terminated fs = true ->
  forallb plain runs = true ->
  lacks EQ p = true ->
  lines_of p (run_all fs runs)
  = match latest p runs with
    | Some (i, s) => [id_line p i; secret_line p s]
    | None => lines_of p fs
    end.
Proof.
  intros Hfs Hruns Hp.
  induction runs as [|r runs IH] using rev_ind; [reflexivity|].
  destruct r as [[q i] s].
  rewrite forallb_app in Hruns. apply andb_true_iff in Hruns as [Hruns Hr].
  cbn [forallb plain] in Hr. rewrite andb_true_r in Hr.
  apply andb_true_iff in Hr as [Hr Hs].
  apply andb_true_iff in Hr as [Hr Hi].
  apply andb_true_iff in Hr as [Hq Hq'].
  specialize (IH Hruns).
  pose proof (run_all_terminated fs runs Hfs) as Hterm.
  rewrite run_all_snoc, latest_snoc.
  destruct (String.eqb_spec q p) as [-> | Hqp].
  - now apply lines_of_after_same.
  - rewrite lines_of_after_other by auto. exact IH.
Qed.

Lemma latest_write_wins_witness :
  lines_of "P"
    (run_all (Some ("A=1" ++ nl))
       [("P", "i1", "s1"); ("Q", "j", "t"); ("P", "i2", "s2");
        ("R", "k", "u")])
  = [id_line "P" "i2"; secret_line "P" "s2"].
Proof.
  apply (latest_write_wins (Some ("A=1" ++ nl))
           [("P", "i1", "s1"); ("Q", "j", "t"); ("P", "i2", "s2");
            ("R", "k", "u")] "P"); reflexivity.
Defined.

(** X8.  When the existing file cannot be read, or the file cannot be
    opened for writing, a run with three arguments exits with status 1,
    prints the one line of the error and no confirmation, and leaves the
    store as it was.  A missing file is not an error: the read is skipped. *)
Theorem refused_write_reported
    (argv0 p i s e : string) (env : file_system) :
  (content env <> None /\ read_error env = Some e)
  \/ ((content env = None \/ read_error env = None)
      /\ write_error env = Some e) ->
  main_io [argv0; p; i; s] env
  = mkOutcome ("❌ Error: " ++ e ++ nl) 1 (content env).
Proof.
  intros H. unfold main_io, add_youtube_credentials_io.
  cbn [List.length Nat.eqb negb nth].
  destruct env as [[t|] r w]; cbn [content read_error write_error] in *.
  - destruct H as [[_ ->] | [[Habs | ->] ->]];
      [reflexivity | discriminate | reflexivity].
  - destruct H as [[Habs _] | [_ ->]]; [congruence|].
    now destruct r.
Qed.

Lemma refused_write_reported_witness :
  main_io ["prog"; "P"; "i"; "s"]
    (mkFileSystem (Some "A=1") None (Some "Permission denied"))
  = mkOutcome ("❌ Error: Permission denied" ++ nl) 1 (Some "A=1").
Proof.
  apply (refused_write_reported "prog" "P" "i" "s" "Permission denied"
           (mkFileSystem (Some "A=1") None (Some "Permission denied"))).
  right. split; [right|]; reflexivity.
Defined.

(** When nothing is refused, the run is the run on the store alone. *)
Lemma granted_write_runs (argv : list string) (env : file_system) :
  content env = None \/ read_error env = None ->
  write_error env = None ->
  main_io argv env = main argv (content env).
Proof.
  intros Hr Hw. unfold main_io, main, add_youtube_credentials_io.
  destruct (negb (List.length argv =? 4)%nat); [reflexivity|].
  rewrite Hw. destruct Hr as [-> | ->]; [reflexivity|].
  now destruct (content env).
Qed.

Lemma granted_write_runs_witness :
  main_io ["prog"; "P"; "i"; "s"]
    (mkFileSystem None (Some "Permission denied") None)
  = main ["prog"; "P"; "i"; "s"] None.
Proof.
  apply (granted_write_runs ["prog"; "P"; "i"; "s"]
           (mkFileSystem None (Some "Permission denied") None));
    [left|]; reflexivity.
Defined.

End AddYoutubeCredentialsMore.

(** ** More on the Credential Extractor *)

Module ExtractCredentialsMore.
Import Py PyFacts ExtractCredentials ExtractCredentialsFacts.

(** On a document of the wrong shape the one line printed is an error
    line. *)
Lemma shape_error_marked (path : string) (data : value) :
  probed_misshapen data = true ->
  exists m,
    extract_credentials path (Ok data)
    = (print EmptyString (generic_msg m), None).
Proof.
  intros H. unfold extract_credentials.
  destruct data as [| b | z | f | s | elems | items].
  - eexists; reflexivity.
  - eexists; reflexivity.
  - eexists; reflexivity.
  - eexists; reflexivity.
  - unfold try_body. cbn [bind py_in].
    destruct (contains s "installed"); [eexists; reflexivity|].
    cbn [bind py_in].
    destruct (contains s "web"); eexists; reflexivity.
  - unfold try_body. cbn [bind py_in].
    destruct (existsb (is_str "installed") elems); [eexists; reflexivity|].
    cbn [bind py_in].
    destruct (existsb (is_str "web") elems); eexists; reflexivity.
  - rewrite try_body_dict. cbn [probed_misshapen] in H.
    destruct (probed_section items) as [section|]; [|discriminate].
    apply negb_true_iff in H. rewrite (read_fields_not_dict _ H).
    eexists; reflexivity.
Qed.

(** The two ways a run with one argument can go. *)
Lemma run_cases render load (argv0 path : string) :
  (exists items fields,
      load path = Ok (VDict items)
      /\ probed_section items = Some (VDict fields)
      /\ truthy (field fields "client_id") = true
      /\ truthy (field fields "client_secret") = true)
  \/ (exists m,
         main render load [argv0; path] = mkOutcome (generic_msg m ++ nl) 1).
Proof.
  rewrite main_one_argument.
  destruct (load path) as [data | e] eqn:Hload.
  - destruct (probed_misshapen data) eqn:Hshape.
    + right. destruct (shape_error_marked path data Hshape) as [m ->].
      now exists m.
    + destruct data as [| | | | | | items]; try discriminate.
      cbn [probed_misshapen] in Hshape. unfold extract_credentials.
      rewrite try_body_dict.
      destruct (probed_section items) as [section|] eqn:Hsec;
        [|right; eexists; reflexivity].
      destruct section as [| | | | | | fields]; try discriminate.
      rewrite read_fields_dict.
      destruct (truthy (field fields "client_id")) eqn:Hid;
        [|right; eexists; reflexivity].
      destruct (truthy (field fields "client_secret")) eqn:Hsecret;
        [|right; eexists; reflexivity].
      left. now exists items, fields.
  - right. destruct e as [| | e]; eexists; reflexivity.
Qed.

(** X9.  With anything but one argument after the program name, the
    extractor prints its two usage lines and exits with status 1, whatever
    there is at any path. *)
Theorem extractor_usage render load (argv : list string) :
  List.length argv <> 2 ->
  main render load argv
  = mkOutcome
      ("Usage: python extract_credentials.py <path_to_json_file>" ++ nl
       ++ "Example: python extract_credentials.py ~/Downloads/client_secret_123456.json"
       ++ nl) 1.
Proof.
  intros H. unfold main.
  destruct (Nat.eqb_spec (List.length argv) 2) as [E | E]; [contradiction|].
  reflexivity.
Qed.

Lemma extractor_usage_witness :
  main (fun _ => EmptyString) (fun _ => Ok (installed_doc "X" "Y")) ["prog"]
  = mkOutcome
      ("Usage: python extract_credentials.py <path_to_json_file>" ++ nl
       ++ "Example: python extract_credentials.py ~/Downloads/client_secret_123456.json"
       ++ nl) 1.
Proof. apply extractor_usage. cbn. lia. Defined.

(** X10.  A run with one argument exits with status 0 exactly when the file
    parses to an object whose probed section ([installed], else [web]) is
    an object with a true [client_id] and a true [client_secret]; the two
    values need not be strings.  The output is then the two credential
    lines, holding these two values as the f-strings render them, and
    nothing else. *)
Theorem success_exactly render load (argv0 path : string) :
  (exit_status (main render load [argv0; path]) = 0 <->
   exists items fields,
     load path = Ok (VDict items)
     /\ probed_section items = Some (VDict fields)
     /\ truthy (field fields "client_id") = true
     /\ truthy (field fields "client_secret") = true)
  /\ (forall items fields,
        load path = Ok (VDict items) ->
        probed_section items = Some (VDict fields) ->
        truthy (field fields "client_id") = true ->
        truthy (field fields "client_secret") = true ->
        main render load [argv0; path]
        = mkOutcome
            ("clientId=" ++ format render (field fields "client_id") ++ nl
             ++ "clientSecret="
             ++ format render (field fields "client_secret") ++ nl) 0).
Proof.
  split; [split|].
  - intros H0.
    destruct (run_cases render load argv0 path) as [Hok | [m Hm]];
      [exact Hok|].
    rewrite Hm in H0. discriminate.
  - intros (items & fields & Hload & Hsec & Hid & Hsecret).
    now rewrite (main_prints_section render load argv0 path items fields).
  - intros items fields. apply main_prints_section.
Qed.

Lemma success_exactly_witness :
  exit_status
    (main (fun _ => "12345")
       (fun _ =>
          Ok (VDict
                [("web",
                  VDict [("client_id", VInt 12345);
                         ("client_secret", VStr "Y")])]))
       ["prog"; "f"])
  = 0.
Proof.
  apply (proj1 (success_exactly (fun _ => "12345")
                  (fun _ =>
                     Ok (VDict
                           [("web",
                             VDict [("client_id", VInt 12345);
                                    ("client_secret", VStr "Y")])]))
                  "prog" "f")).
  exists [("web",
           VDict [("client_id", VInt 12345); ("client_secret", VStr "Y")])],
    [("client_id", VInt 12345); ("client_secret", VStr "Y")].
  repeat split.
Defined.

(** X11.  A run with one argument ends in one of two ways.  Either it
    exits with status 0 and its output begins with [clientId=]: no error
    message was printed first.  Or it exits with status 1 and its output
    begins with the error mark: no failure is silent, and nothing is
    printed before the message. *)
Theorem fails_loudly render load (argv0 path : string) :
  (exit_status (main render load [argv0; path]) = 0
   /\ startswith (stdout (main render load [argv0; path])) "clientId="
      = true)
  \/ (exit_status (main render load [argv0; path]) = 1
      /\ startswith (stdout (main render load [argv0; path])) "❌ Error: "
         = true).
Proof.
  destruct (run_cases render load argv0 path)
    as [(items & fields & Hload & Hsec & Hid & Hsecret) | [m Hm]].
  - left.
    rewrite (main_prints_section render load argv0 path items fields)
      by assumption.
    split; [reflexivity|]. cbn [stdout]. apply startswith_append.
  - right. rewrite Hm. split; [reflexivity|].
    cbn [stdout]. unfold generic_msg. rewrite append_assoc.
    apply startswith_append.
Qed.

(** X12.  Nothing but the two fields of the probed section matters: two
    documents whose probed sections are objects that agree on [client_id]
    and on [client_secret] give the same run, whatever else the documents
    and the sections hold. *)
Theorem only_two_fields_matter render load load' (argv0 path : string)
    items items' fields fields' :
  load path = Ok (VDict items) ->
  load' path = Ok (VDict items') ->
  probed_section items = Some (VDict fields) ->
  probed_section items' = Some (VDict fields') ->
  field fields "client_id" = field fields' "client_id" ->
  field fields "client_secret" = field fields' "client_secret" ->
  main render load [argv0; path] = main render load' [argv0; path].
Proof.
  intros Hload Hload' Hsec Hsec' Hid Hsecret.
  rewrite !main_one_argument, Hload, Hload'. unfold extract_credentials.
  rewrite !try_body_dict, Hsec, Hsec', !read_fields_dict.
  now rewrite Hid, Hsecret.
Qed.

Lemma only_two_fields_matter_witness :
  main (fun _ => EmptyString)
    (fun _ =>
       Ok (VDict
             [("project", VStr "demo");
              ("web",
               VDict [("client_id", VStr "X"); ("auth_uri", VStr "u");
                      ("client_secret", VStr "Y")])]))
    ["prog"; "f"]
  = main (fun _ => EmptyString) (fun _ => Ok (installed_doc "X" "Y"))
      ["prog"; "f"].
Proof.
  apply (only_two_fields_matter (fun _ => EmptyString)
           (fun _ =>
              Ok (VDict
                    [("project", VStr "demo");
                     ("web",
                      VDict [("client_id", VStr "X"); ("auth_uri", VStr "u");
                             ("client_secret", VStr "Y")])]))
           (fun _ => Ok (installed_doc "X" "Y")) "prog" "f"
           [("project", VStr "demo");
            ("web",
             VDict [("client_id", VStr "X"); ("auth_uri", VStr "u");
                    ("client_secret", VStr "Y")])]
           [("installed",
             VDict [("client_id", VStr "X"); ("client_secret", VStr "Y")])]
           [("client_id", VStr "X"); ("auth_uri", VStr "u");
            ("client_secret", VStr "Y")]
           [("client_id", VStr "X"); ("client_secret", VStr "Y")]);
    reflexivity.
Defined.

(** X13.  The [web] entry is read only when there is no [installed] entry:
    the run is then the run on the document reduced to its [web] entry,
    whatever that entry is. *)
Theorem web_fallback render load (argv0 path : string) items web :
  load path = Ok (VDict items) ->
  dict_get "installed" items = None ->
  dict_get "web" items = Some web ->
  main render load [argv0; path]
  = main render (fun _ => Ok (VDict [("web", web)])) [argv0; path].
Proof.
  intros Hload Hinst Hweb.
  rewrite !main_one_argument, Hload. unfold extract_credentials.
  rewrite !try_body_dict. unfold probed_section. now rewrite Hinst, Hweb.
Qed.

Lemma web_fallback_witness :
  main (fun _ => EmptyString)
    (fun _ => Ok (VDict [("other", VInt 1); ("web", VInt 5)])) ["prog"; "f"]
  = main (fun _ => EmptyString)
      (fun _ => Ok (VDict [("web", VInt 5)])) ["prog"; "f"].
Proof.
  apply (web_fallback (fun _ => EmptyString)
           (fun _ => Ok (VDict [("other", VInt 1); ("web", VInt 5)]))
           "prog" "f" [("other", VInt 1); ("web", VInt 5)] (VInt 5));
    reflexivity.
Defined.

(** X14.  The output can be read back line by line: when the two fields of
    the probed section are non-empty strings without line breaks, standard
    output is cut into exactly two lines, [clientId=] followed by the id
    and [clientSecret=] followed by the secret. *)
Theorem output_is_two_lines render load (argv0 path : string)
    items fields (X Y : string) :
  load path = Ok (VDict items) ->
  probed_section items = Some (VDict fields) ->
  field fields "client_id" = VStr X ->
  field fields "client_secret" = VStr Y ->
  X <> EmptyString -> Y <> EmptyString ->
  no_break X = true -> no_break Y = true ->
  split_keepends (stdout (main render load [argv0; path]))
  = ["clientId=" ++ X ++ nl; "clientSecret=" ++ Y ++ nl].
Proof.
  intros Hload Hsec Hid Hsecret HX HY HbX HbY.
  apply String.eqb_neq in HX, HY.
  rewrite (main_prints_section render load argv0 path items fields);
    try assumption;
    try (rewrite ?Hid, ?Hsecret; cbn [truthy]; now rewrite ?HX, ?HY).
  rewrite Hid, Hsecret. cbn [stdout format].
  assert (Hline : forall k v, no_break k = true -> no_break v = true ->
                              complete_line (k ++ v ++ nl) = true).
  { intros k v Hk Hv. rewrite <- append_assoc.
    apply complete_line_intro. now rewrite no_break_append, Hk, Hv. }
  replace ("clientId=" ++ X ++ nl ++ "clientSecret=" ++ Y ++ nl)
    with (("clientId=" ++ X ++ nl)
            ++ ("clientSecret=" ++ Y ++ nl) ++ EmptyString).
  - rewrite !split_keepends_line by (apply Hline; auto). reflexivity.
  - now rewrite append_nil_r, !append_assoc.
Qed.

Lemma output_is_two_lines_witness :
  split_keepends
    (stdout
       (main (fun _ => EmptyString) (fun _ => Ok (installed_doc "X" "Y"))
          ["prog"; "f"]))
  = ["clientId=" ++ "X" ++ nl; "clientSecret=" ++ "Y" ++ nl].
Proof.
  apply (output_is_two_lines (fun _ => EmptyString)
           (fun _ => Ok (installed_doc "X" "Y")) "prog" "f"
           [("installed",
             VDict [("client_id", VStr "X"); ("client_secret", VStr "Y")])]
           [("client_id", VStr "X"); ("client_secret", VStr "Y")] "X" "Y");
    try reflexivity; discriminate.
Defined.

End ExtractCredentialsMore.
